(** * Verification of bot.py (Joker's Telegram Bot)

    A shallow embedding of [src/bot.py]: the health-check HTTP handler,
    the [TelegramBot] lifecycle (construction, [setup_bot],
    [setup_health_server], [start]) as an exception/state monad over an
    event trace, the resolution of [HEALTH_CHECK_ENABLED], and the
    python-telegram-bot (v20) filter predicates used by the message
    handlers. *)

From Stdlib Require Import String Ascii List ZArith QArith Bool Lia.
Import ListNotations.
Open Scope string_scope.

(* ================================================================= *)
(** ** Strings *)

(** The double-quote character, used to spell out JSON literals. *)
Definition dq : string := String (ascii_of_nat 34) EmptyString.

(** ASCII lower-casing, used to compare HTTP header names, which are
    case-insensitive. *)
Definition lower_ascii (c : ascii) : ascii :=
  let n := nat_of_ascii c in
  if (Nat.leb 65 n && Nat.leb n 90)%bool then ascii_of_nat (n + 32) else c.

Fixpoint lower (s : string) : string :=
  match s with
  | EmptyString => EmptyString
  | String c s' => String (lower_ascii c) (lower s')
  end.

(* ================================================================= *)
(** ** HealthCheckHandler *)

Module Http.

(** What a [BaseHTTPRequestHandler] writes back for one request. *)
Record response := mkResponse {
  status : Z;
  headers : list (string * string);
  body : string
}.

(** The per-request context of the handler: the request path, and the
    [Server] and [Date] header values that [send_response] adds. *)
Record request := mkRequest {
  path : string;
  server_version : string;
  date : string
}.

(** The response under construction, threaded through the handler calls
    (the handler writes to [self.wfile]). *)
Definition emit := response -> response.

(** [send_response(code)]: status line, then the [Server] and [Date]
    headers that [BaseHTTPRequestHandler.send_response] always adds. *)
Definition send_response (rq : request) (code : Z) : emit :=
  fun r => mkResponse code
             (headers r ++ [("Server", server_version rq); ("Date", date rq)])
             (body r).

Definition send_header (k v : string) : emit :=
  fun r => mkResponse (status r) (headers r ++ [(k, v)]) (body r).

Definition end_headers : emit := fun r => r.

Definition wfile_write (b : string) : emit :=
  fun r => mkResponse (status r) (headers r) (body r ++ b).

(** The bytes literal
    [b'{"status": "healthy", "bot": "jokers-telegram-bot"}']. *)
Definition health_body : string :=
  "{" ++ dq ++ "status" ++ dq ++ ": " ++ dq ++ "healthy" ++ dq ++ ", "
      ++ dq ++ "bot" ++ dq ++ ": " ++ dq ++ "jokers-telegram-bot" ++ dq ++ "}".

Definition empty_response : response := mkResponse 0 [] "".

(** [HealthCheckHandler.do_GET] *)
Definition do_GET (rq : request) : response :=
  if String.eqb (path rq) "/health" then
    wfile_write health_body
      (end_headers
         (send_header "Content-type" "application/json"
            (send_response rq 200 empty_response)))
  else
    end_headers (send_response rq 404 empty_response).

(** Header lookup as an HTTP client does it: names are case-insensitive. *)
Fixpoint header (name : string) (hs : list (string * string)) : option string :=
  match hs with
  | [] => None
  | (k, v) :: hs' =>
      if String.eqb (lower k) (lower name) then Some v else header name hs'
  end.

(** A JSON object of string fields, printed as Python's [json.dumps]
    prints it ([", "] and [": "] separators). *)
Definition json_str (s : string) : string := dq ++ s ++ dq.

Fixpoint json_fields (fs : list (string * string)) : string :=
  match fs with
  | [] => ""
  | [(k, v)] => json_str k ++ ": " ++ json_str v
  | (k, v) :: fs' => json_str k ++ ": " ++ json_str v ++ ", " ++ json_fields fs'
  end.

Definition json_object (fs : list (string * string)) : string :=
  "{" ++ json_fields fs ++ "}".

End Http.

(* ================================================================= *)
(** ** python-telegram-bot: updates, filters and handlers

    The library code [bot.py] calls, as python-telegram-bot v20 writes
    it ([telegram/_update.py], [telegram/ext/filters.py],
    [telegram/ext/_messagehandler.py], [telegram/ext/_commandhandler.py]).
    Only the fields the filters read are kept. *)

Module Ptb.

Record entity := mkEntity {
  etype : string;
  eoffset : nat;
  elength : nat
}.

Record message := mkMessage {
  text : option string;
  entities : list entity;
  new_chat_members : list Z
}.

(** [callback_query] is left out: none of the filters below reads it. *)
Record update := mkUpdate {
  u_message : option message;
  u_edited_message : option message;
  u_channel_post : option message;
  u_edited_channel_post : option message
}.

Definition BOT_COMMAND : string := "bot_command".

(** [Update.effective_message] *)
Definition effective_message (u : update) : option message :=
  match u_message u with
  | Some m => Some m
  | None =>
    match u_edited_message u with
    | Some m => Some m
    | None =>
      match u_channel_post u with
      | Some m => Some m
      | None => u_edited_channel_post u
      end
    end
  end.

Definition is_some {A} (o : option A) : bool :=
  match o with Some _ => true | None => false end.

(** [BaseFilter.check_update]: only message-like updates are looked at. *)
Definition base_check_update (u : update) : bool :=
  is_some (u_channel_post u) || is_some (u_message u)
  || is_some (u_edited_channel_post u) || is_some (u_edited_message u).

(** Python truthiness of [message.text]. *)
Definition truthy_text (t : option string) : bool :=
  match t with Some s => negb (String.eqb s "") | None => false end.

Inductive filter :=
| TEXT                      (* filters.TEXT *)
| COMMAND                   (* filters.COMMAND *)
| NEW_CHAT_MEMBERS          (* filters.StatusUpdate.NEW_CHAT_MEMBERS *)
| EDITED_MESSAGE            (* filters.UpdateType.EDITED_MESSAGE *)
| And (f g : filter)        (* f & g *)
| Not (f : filter).         (* ~f *)

(** [MessageFilter.filter] of the message filters. *)
Definition message_filter (f : filter) (m : message) : bool :=
  match f with
  | TEXT => truthy_text (text m)
  | COMMAND =>
      match entities m with
      | [] => false
      | first :: _ => String.eqb (etype first) BOT_COMMAND && Nat.eqb (eoffset first) 0
      end
  | NEW_CHAT_MEMBERS =>
      match new_chat_members m with [] => false | _ => true end
  | _ => false
  end.

(** [check_update] of a filter.  Message filters test the effective
    message, update filters ([UpdateType.*], [_MergedFilter],
    [_InvertedFilter]) the update; both first require
    [BaseFilter.check_update]. *)
Fixpoint check_update (f : filter) (u : update) : bool :=
  base_check_update u &&
  match f with
  | EDITED_MESSAGE => is_some (u_edited_message u)
  | And f1 f2 => check_update f1 u && check_update f2 u
  | Not f1 => negb (check_update f1 u)
  | _ =>
      match effective_message u with
      | Some m => message_filter f m
      | None => false
      end
  end.

(** [filters.UpdateType.MESSAGES], the default filter of [CommandHandler]. *)
Definition messages_update (u : update) : bool :=
  is_some (u_message u) || is_some (u_edited_message u).

(** The text before the first ['@'] and, if any, the text after it. *)
Fixpoint split_at (s : string) : string * option string :=
  match s with
  | EmptyString => (EmptyString, None)
  | String c s' =>
      if Ascii.eqb c "@"%char then (EmptyString, Some s')
      else let (a, b) := split_at s' in (String c a, b)
  end.

(** [CommandHandler.check_update] for a bot whose username is
    [bot_username]: the first entity is a bot command at offset 0, its
    name (lower-cased) is the handler's, and any [@suffix] names this bot. *)
Definition command_check_update (bot_username cmd : string) (u : update) : bool :=
  match effective_message u with
  | None => false
  | Some m =>
    match entities m, text m with
    | first :: _, Some t =>
        if (String.eqb (etype first) BOT_COMMAND && Nat.eqb (eoffset first) 0
            && negb (String.eqb t ""))%bool then
          let command := substring 1 (elength first - 1) t in
          let (name, at_part) := split_at command in
          let target := match at_part with Some b => fst (split_at b) | None => bot_username end in
          String.eqb (lower name) (lower cmd)
          && String.eqb (lower target) (lower bot_username)
          && messages_update u
        else false
    | _, _ => false
    end
  end.

End Ptb.

(* ================================================================= *)
(** ** TelegramBot *)

Module Bot.
Import Ptb.

(** The callbacks imported from [handlers]. *)
Inductive callback :=
| start_command | help_command | about_command | dev_command
| stats_command | deploy_command
| handle_new_chat_members | handle_message | handle_edited_message
| error_handler.

Inductive handler :=
| CommandHandler (cmd : string) (cb : callback)
| MessageHandler (f : filter) (cb : callback).

(** The handlers [setup_bot] adds, in the order it adds them. *)
Definition registered_handlers : list handler :=
  [ CommandHandler "start" start_command;
    CommandHandler "help" help_command;
    CommandHandler "about" about_command;
    CommandHandler "dev" dev_command;
    CommandHandler "stats" stats_command;
    CommandHandler "deploy" deploy_command;
    MessageHandler NEW_CHAT_MEMBERS handle_new_chat_members;
    MessageHandler (And TEXT (Not COMMAND)) handle_message;
    MessageHandler EDITED_MESSAGE handle_edited_message ].

(** [BaseHandler.check_update] of each handler kind. *)
Definition handler_check_update (bot_username : string) (h : handler) (u : update) : bool :=
  match h with
  | CommandHandler c _ => command_check_update bot_username c u
  | MessageHandler f _ => check_update f u
  end.

(** [Application.process_update] within one handler group: the first
    handler whose [check_update] holds handles the update. *)
Fixpoint dispatch (bot_username : string) (hs : list handler) (u : update)
  : option callback :=
  match hs with
  | [] => None
  | h :: hs' =>
      if handler_check_update bot_username h u then
        match h with CommandHandler _ cb | MessageHandler _ cb => Some cb end
      else dispatch bot_username hs' u
  end.

(** The message-shape handlers whose predicate holds on [u]. *)
Definition matching_message_handlers (u : update) : list callback :=
  flat_map (fun h => match h with
                     | MessageHandler f cb => if check_update f u then [cb] else []
                     | CommandHandler _ _ => []
                     end) registered_handlers.

(* ----------------------------------------------------------------- *)
(** *** Process state and effects *)

(** The keyword arguments of [run_polling]; [poll_interval] is a float
    in the source, written here as a rational. *)
Record polling_cfg := mkPollingCfg {
  poll_interval : Q;
  timeout : Z;
  read_timeout : Z;
  write_timeout : Z;
  connect_timeout : Z;
  pool_timeout : Z;
  drop_pending_updates : bool
}.

Record thread := mkThread {
  target : string;
  daemon : bool
}.

Inductive level := INFO | WARNING | ERROR.

(** Observable effects, in the order they happen. *)
Inductive event :=
| EvLog (lvl : level) (msg : string)
| EvBuild (token : string)                    (* Application built *)
| EvAddHandler (h : handler)
| EvAddErrorHandler (cb : callback)
| EvHTTPServer (host : string) (port : Z)     (* socket bound, listening *)
| EvThreadStart (t : thread)
| EvRunPolling (cfg : polling_cfg)            (* poll loop entered *)
| EvDeliver (update_ids : list nat).          (* updates handed to handlers *)

Inductive exn :=
| RuntimeError (msg : string)
| OSError (msg : string)
| LibraryError (msg : string).

Record app := mkApp {
  app_handlers : list handler;
  app_error_handlers : list callback
}.

Record server := mkServer {
  server_host : string;
  server_port : Z
}.

(** The attributes of the [TelegramBot] object, the effect trace, and the
    updates pending on the platform for this bot. *)
Record state := mkState {
  application : option app;
  health_server : option server;
  trace : list event;
  pending : list nat
}.

(** What the process runs against: the values read from [config] and the
    outcome of each library call that can fail.  Outcomes of calls that
    may be repeated are indexed by the length of the trace at the call. *)
Record world := mkWorld {
  BOT_TOKEN : string;
  PORT : Z;
  HEALTH_CHECK_ENABLED : bool;
  build_ok : bool;
  add_handler_ok : handler -> bool;
  add_error_handler_ok : bool;
  bind_ok : nat -> bool;
  thread_start_ok : nat -> bool;
  polling_ok : bool;
  session_updates : list nat      (* updates sent while polling runs *)
}.

(* ----------------------------------------------------------------- *)
(** *** An exception and state monad *)

Inductive result (A : Type) :=
| Ok (a : A)
| Raise (e : exn).
Arguments Ok {A} a.
Arguments Raise {A} e.

Definition M (A : Type) := state -> result A * state.

Definition ret {A} (a : A) : M A := fun st => (Ok a, st).

Definition bind {A B} (m : M A) (k : A -> M B) : M B :=
  fun st => match m st with
            | (Ok a, st') => k a st'
            | (Raise e, st') => (Raise e, st')
            end.

Notation "x <- m ;; k" := (bind m (fun x => k))
  (at level 61, m at next level, right associativity).
Notation "m ;; k" := (bind m (fun _ => k))
  (at level 61, right associativity).

Definition raise {A} (e : exn) : M A := fun st => (Raise e, st).

(** [try: m except Exception as e: h e] *)
Definition try_except {A} (m : M A) (h : exn -> M A) : M A :=
  fun st => match m st with
            | (Ok a, st') => (Ok a, st')
            | (Raise e, st') => h e st'
            end.

Definition get : M state := fun st => (Ok st, st).

Definition emit (e : event) : M unit :=
  fun st => (Ok tt, mkState (application st) (health_server st)
                            (trace st ++ [e]) (pending st)).

Definition log (l : level) (msg : string) : M unit := emit (EvLog l msg).

Definition set_application (a : option app) : M unit :=
  fun st => (Ok tt, mkState a (health_server st) (trace st) (pending st)).

Definition set_health_server (s : option server) : M unit :=
  fun st => (Ok tt, mkState (application st) s (trace st) (pending st)).

Definition set_pending (p : list nat) : M unit :=
  fun st => (Ok tt, mkState (application st) (health_server st) (trace st) p).

(* ----------------------------------------------------------------- *)
(** *** Library calls *)

(** [Application.builder().token(BOT_TOKEN).build()] *)
Definition build_application (w : world) : M app :=
  if build_ok w then emit (EvBuild (BOT_TOKEN w));; ret (mkApp [] [])
  else raise (LibraryError "build").

(** [self.application.add_handler(h)] *)
Definition add_handler (w : world) (h : handler) : M unit :=
  st <- get;;
  match application st with
  | None => raise (LibraryError "'NoneType' object has no attribute 'add_handler'")
  | Some a =>
      if add_handler_ok w h then
        set_application (Some (mkApp (app_handlers a ++ [h]) (app_error_handlers a)));;
        emit (EvAddHandler h)
      else raise (LibraryError "add_handler")
  end.

(** The [add_handler] calls of [setup_bot], one after the other. *)
Fixpoint add_handlers (w : world) (hs : list handler) : M unit :=
  match hs with
  | [] => ret tt
  | h :: hs' => add_handler w h;; add_handlers w hs'
  end.

(** [self.application.add_error_handler(cb)] *)
Definition add_error_handler (w : world) (cb : callback) : M unit :=
  st <- get;;
  match application st with
  | None => raise (LibraryError "'NoneType' object has no attribute 'add_error_handler'")
  | Some a =>
      if add_error_handler_ok w then
        set_application (Some (mkApp (app_handlers a) (app_error_handlers a ++ [cb])));;
        emit (EvAddErrorHandler cb)
      else raise (LibraryError "add_error_handler")
  end.

(** [HTTPServer(('0.0.0.0', PORT), HealthCheckHandler)]: binds and
    listens, or raises [OSError]. *)
Definition http_server (w : world) (host : string) (port : Z) : M server :=
  st <- get;;
  if bind_ok w (length (trace st)) then
    emit (EvHTTPServer host port);; ret (mkServer host port)
  else raise (OSError "Address already in use").

(** [t.start()] *)
Definition thread_start (w : world) (t : thread) : M unit :=
  st <- get;;
  if thread_start_ok w (length (trace st)) then emit (EvThreadStart t)
  else raise (RuntimeError "can't start new thread").

(** [self.application.run_polling(...)] with the keywords of [cfg].  With [drop_pending_updates]
    the updates pending on the platform are discarded before polling
    starts (the library passes the flag to [delete_webhook]); the loop
    then hands the remaining and newly sent updates to the handlers
    until the process is stopped. *)
Definition run_polling (w : world) (cfg : polling_cfg) : M unit :=
  emit (EvRunPolling cfg);;
  (if drop_pending_updates cfg then set_pending [] else ret tt);;
  st <- get;;
  if polling_ok w then
    emit (EvDeliver (pending st ++ session_updates w));; set_pending []
  else raise (LibraryError "NetworkError").

(* ----------------------------------------------------------------- *)
(** *** The methods of [TelegramBot] *)

(** [TelegramBot.setup_bot] *)
Definition setup_bot (w : world) : M unit :=
  try_except
    (a <- build_application w;;
     set_application (Some a);;
     add_handlers w registered_handlers;;
     add_error_handler w error_handler;;
     log INFO "Bot handlers configured successfully")
    (fun e => log ERROR "Failed to setup bot";; raise e).

(** [TelegramBot.setup_health_server] *)
Definition setup_health_server (w : world) : M unit :=
  try_except
    (s <- http_server w "0.0.0.0" (PORT w);;
     set_health_server (Some s);;
     let health_thread := mkThread "serve_forever" true in
     thread_start w health_thread;;
     log INFO "Health check server started on port")
    (fun _ => log WARNING "Could not start health server").

(** [TelegramBot.__init__] *)
Definition init (w : world) : M unit :=
  set_application None;;
  set_health_server None;;
  setup_bot w;;
  if HEALTH_CHECK_ENABLED w then setup_health_server w else ret tt.

(** The keyword arguments [start] passes to [run_polling]. *)
Definition start_polling_cfg : polling_cfg :=
  mkPollingCfg (1 # 1) 10 10 10 10 10 true.

(** [TelegramBot.start] *)
Definition start (w : world) : M unit :=
  try_except
    (st <- get;;
     match application st with
     | None => raise (RuntimeError "Bot application not properly initialized")
     | Some _ =>
         st' <- get;;
         (if HEALTH_CHECK_ENABLED w && negb (is_some (health_server st'))
          then setup_health_server w else ret tt);;
         log INFO "Starting Joker's Telegram Bot...";;
         log INFO "Health check enabled";;
         log INFO "Port configured";;
         run_polling w start_polling_cfg
     end)
    (fun e => log ERROR "Error starting bot";; raise e).

(** A process: [bot = TelegramBot(); bot.start()]. *)
Definition run_bot (w : world) : M unit := init w;; start w.

(** [start] called [n] more times on the same object. *)
Fixpoint starts (w : world) (n : nat) : M unit :=
  match n with
  | O => ret tt
  | S n' => start w;; starts w n'
  end.

(** A process begins with no object and the platform's backlog. *)
Definition fresh (backlog : list nat) : state := mkState None None [] backlog.

(** Counting the effects in a trace. *)
Definition is_run_polling (e : event) : bool :=
  match e with EvRunPolling _ => true | _ => false end.

Definition is_http_server (e : event) : bool :=
  match e with EvHTTPServer _ _ => true | _ => false end.

Definition servers_created (tr : list event) : nat :=
  length (List.filter is_http_server tr).

Definition polls (tr : list event) : nat :=
  length (List.filter is_run_polling tr).

Definition is_thread_start (e : event) : bool :=
  match e with EvThreadStart _ => true | _ => false end.

Definition threads_started (tr : list event) : nat :=
  length (List.filter is_thread_start tr).

End Bot.

(* ================================================================= *)
(** ** HEALTH_CHECK_ENABLED *)

Module Config.

(** [os.getenv(k)] over the process environment. *)
Fixpoint getenv (env : list (string * string)) (k : string) : option string :=
  match env with
  | [] => None
  | (k', v) :: env' => if String.eqb k' k then Some v else getenv env' k
  end.

(** Python truthiness of a [str] or [None]. *)
Definition truthy (o : option string) : bool :=
  match o with Some s => negb (String.eqb s "") | None => false end.

(** Python's [a or b]. *)
Definition py_or (a b : option string) : option string :=
  if truthy a then a else b.

(** The module-level [HEALTH_CHECK_ENABLED] of [bot.py].
    [config_value] is [Some v] when [from config import
    HEALTH_CHECK_ENABLED] succeeds ([v] the truth value of what it
    imports) and [None] when it raises [ImportError]. *)
Definition resolve_health_check_enabled
    (config_value : option bool) (env : list (string * string)) : bool :=
  match config_value with
  | Some v => v
  | None => truthy (py_or (getenv env "RENDER") (getenv env "RENDER_SERVICE_ID"))
  end.

(** The claim's reading of the fallback: the flag is inferred from the
    mere presence of a [RENDER] or [RENDER_SERVICE_ID] variable. *)
Definition resolve_by_presence
    (config_value : option bool) (env : list (string * string)) : bool :=
  match config_value with
  | Some v => v
  | None => Ptb.is_some (getenv env "RENDER") || Ptb.is_some (getenv env "RENDER_SERVICE_ID")
  end.

End Config.

(* ================================================================= *)
(** ** Concrete inputs *)

Module Inputs.
Import Ptb Bot.

(** A process whose platform accepts every call. *)
Definition ok_world (hce : bool) : world :=
  mkWorld "123:ABC" 10000 hce true (fun _ => true) true
    (fun _ => true) (fun _ => true) true [5; 6]%nat.

(** The token is rejected when the application is built. *)
Definition bad_token_world : world :=
  mkWorld "bad" 10000 true false (fun _ => true) true
    (fun _ => true) (fun _ => true) true [5; 6]%nat.

(** The configured port is already in use. *)
Definition port_in_use_world : world :=
  mkWorld "123:ABC" 10000 true true (fun _ => true) true
    (fun _ => false) (fun _ => true) true [5; 6]%nat.

(** An edited plain-text message: the update carries only
    [edited_message], whose text is ["hello"] and has no entities. *)
Definition edited_text_update : update :=
  mkUpdate None (Some (mkMessage (Some "hello") [] [])) None None.

(** A Render deployment whose [RENDER] variable is set but empty. *)
Definition empty_render_env : list (string * string) := [("RENDER", "")].

(** The port is free when [start] runs but was taken while the
    constructor ran (the constructor's bind is the thirteenth effect). *)
Definition retry_world : world :=
  mkWorld "123:ABC" 10000 true true (fun _ => true) true
    (fun n => Nat.ltb 12 n) (fun _ => true) true [5; 6]%nat.

(** The socket is bound but no thread can be started. *)
Definition thread_fail_world : world :=
  mkWorld "123:ABC" 10000 true true (fun _ => true) true
    (fun _ => true) (fun _ => false) true [5; 6]%nat.

(** The command handlers are registered, the message handlers refused. *)
Definition commands_only_world : world :=
  mkWorld "123:ABC" 10000 true true
    (fun h => match h with CommandHandler _ _ => true | MessageHandler _ _ => false end)
    true (fun _ => true) (fun _ => true) true [5; 6]%nat.


(** Messages and updates for the dispatch properties; the bot's username
    is [JokerBot]. *)
Definition start_now_msg : message :=
  mkMessage (Some "/start now") [mkEntity "bot_command" 0 6] [].

Definition hello_msg : message := mkMessage (Some "hello") [] [].

Definition join_msg : message := mkMessage None [] [42%Z].

Definition help_at_bot_msg : message :=
  mkMessage (Some "/help@JokerBot") [mkEntity "bot_command" 0 14] [].

Definition start_at_other_msg : message :=
  mkMessage (Some "/start@OtherBot") [mkEntity "bot_command" 0 15] [].

Definition start_msg : message :=
  mkMessage (Some "/start") [mkEntity "bot_command" 0 6] [].

Definition as_message (m : message) : update := mkUpdate (Some m) None None None.

Definition as_channel_post (m : message) : update := mkUpdate None None (Some m) None.

(** A message whose first entity is not a bot command at offset 0. *)
Definition no_leading_command (m : message) : Prop :=
  match entities m with
  | [] => True
  | e :: _ => etype e <> BOT_COMMAND \/ eoffset e <> 0%nat
  end.

End Inputs.

(* ================================================================= *)
(** ** Facts about the lifecycle *)

Module BotFacts.
Import Ptb Bot.
Local Open Scope list_scope.
Local Open Scope nat_scope.

(** [m] only appends to the trace, and every event it appends has [P]. *)
Definition adds (P : event -> Prop) {A} (m : M A) : Prop :=
  forall st, exists tr, trace (snd (m st)) = trace st ++ tr /\ Forall P tr.

(** [m] leaves [self.health_server] alone. *)
Definition keeps_hs {A} (m : M A) : Prop :=
  forall st, health_server (snd (m st)) = health_server st.

(** The events of registering handlers and of logging. *)
Definition benign (e : event) : Prop :=
  match e with
  | EvLog _ _ | EvBuild _ | EvAddHandler _ | EvAddErrorHandler _ => True
  | _ => False
  end.

(** The events of [setup_health_server]. *)
Definition health_ev (e : event) : Prop :=
  match e with
  | EvLog _ _ | EvHTTPServer _ _ => True
  | EvThreadStart t => daemon t = true /\ target t = "serve_forever"%string
  | _ => False
  end.

(** The events of the poll loop entered with [start]'s configuration. *)
Definition poll_ev (w : world) (e : event) : Prop :=
  match e with
  | EvRunPolling cfg => cfg = start_polling_cfg
  | EvDeliver ids => ids = session_updates w
  | _ => False
  end.

(** All the steps of [setup_bot] succeed. *)
Definition setup_steps_ok (w : world) : bool :=
  build_ok w && forallb (add_handler_ok w) registered_handlers && add_error_handler_ok w.

Definition full_app : app := mkApp registered_handlers [error_handler].

(** The steps of [start] after the health-server check. *)
Definition start_tail (w : world) : M unit :=
  try_except
    (log INFO "Starting Joker's Telegram Bot...";;
     log INFO "Health check enabled";;
     log INFO "Port configured";;
     run_polling w start_polling_cfg)
    (fun e => log ERROR "Error starting bot";; raise e).

(** The health-server check of [start], run at [st]. *)
Definition start_health_step (w : world) (st : state) : result unit * state :=
  (if HEALTH_CHECK_ENABLED w && negb (is_some (health_server st))
   then setup_health_server w else ret tt) st.

(** At most one server was ever bound, and none while
    [self.health_server] is unset. *)
Definition one_server (st : state) : Prop :=
  servers_created (trace st) <= 1
  /\ (health_server st = None -> servers_created (trace st) = 0).


Section Frame.
Variable P : event -> Prop.

Lemma adds_ret {A} (a : A) : adds P (ret a).
Proof. intro st. exists []. rewrite app_nil_r. auto. Qed.

Lemma adds_raise {A} (e : exn) : adds P (@raise A e).
Proof. intro st. exists []. rewrite app_nil_r. auto. Qed.

Lemma adds_get : adds P get.
Proof. intro st. exists []. rewrite app_nil_r. auto. Qed.

Lemma adds_emit e : P e -> adds P (emit e).
Proof. intros H st. exists [e]. auto. Qed.

Lemma adds_set_application a : adds P (set_application a).
Proof. intro st. exists []. rewrite app_nil_r. auto. Qed.

Lemma adds_set_health_server s : adds P (set_health_server s).
Proof. intro st. exists []. rewrite app_nil_r. auto. Qed.

Lemma adds_set_pending p : adds P (set_pending p).
Proof. intro st. exists []. rewrite app_nil_r. auto. Qed.

Lemma adds_bind {A B} (m : M A) (k : A -> M B) :
  adds P m -> (forall a, adds P (k a)) -> adds P (bind m k).
Proof.
  intros Hm Hk st. unfold bind.
  destruct (Hm st) as [tr1 [E1 F1]].
  destruct (m st) as [[a | e] st'] eqn:Em; simpl in *.
  - destruct (Hk a st') as [tr2 [E2 F2]].
    exists (tr1 ++ tr2). rewrite E2, E1, app_assoc.
    split; [reflexivity | apply Forall_app; auto].
  - exists tr1. auto.
Qed.

Lemma adds_try {A} (m : M A) (h : exn -> M A) :
  adds P m -> (forall e, adds P (h e)) -> adds P (try_except m h).
Proof.
  intros Hm Hh st. unfold try_except.
  destruct (Hm st) as [tr1 [E1 F1]].
  destruct (m st) as [[a | e] st'] eqn:Em; simpl in *.
  - exists tr1. auto.
  - destruct (Hh e st') as [tr2 [E2 F2]].
    exists (tr1 ++ tr2). rewrite E2, E1, app_assoc.
    split; [reflexivity | apply Forall_app; auto].
Qed.

End Frame.

Lemma keeps_ret {A} (a : A) : keeps_hs (ret a).
Proof. intro st. reflexivity. Qed.

Lemma keeps_raise {A} (e : exn) : keeps_hs (@raise A e).
Proof. intro st. reflexivity. Qed.

Lemma keeps_get : keeps_hs get.
Proof. intro st. reflexivity. Qed.

Lemma keeps_emit e : keeps_hs (emit e).
Proof. intro st. reflexivity. Qed.

Lemma keeps_set_application a : keeps_hs (set_application a).
Proof. intro st. reflexivity. Qed.

Lemma keeps_set_pending p : keeps_hs (set_pending p).
Proof. intro st. reflexivity. Qed.

Lemma keeps_bind {A B} (m : M A) (k : A -> M B) :
  keeps_hs m -> (forall a, keeps_hs (k a)) -> keeps_hs (bind m k).
Proof.
  intros Hm Hk st. unfold bind. specialize (Hm st).
  destruct (m st) as [[a | e] st'] eqn:Em; simpl in *.
  - rewrite Hk. exact Hm.
  - exact Hm.
Qed.

Lemma keeps_try {A} (m : M A) (h : exn -> M A) :
  keeps_hs m -> (forall e, keeps_hs (h e)) -> keeps_hs (try_except m h).
Proof.
  intros Hm Hh st. unfold try_except. specialize (Hm st).
  destruct (m st) as [[a | e] st'] eqn:Em; simpl in *.
  - exact Hm.
  - rewrite Hh. exact Hm.
Qed.

Create HintDb frame_db.
#[export] Hint Resolve adds_ret adds_raise adds_get adds_set_application
  adds_set_health_server adds_set_pending : frame_db.
#[export] Hint Resolve keeps_ret keeps_raise keeps_get keeps_emit
  keeps_set_application keeps_set_pending : frame_db.

(** Walk through a monadic program: split binds and handlers, case on
    the tests, and close the leaves. *)
Ltac frame :=
  repeat (cbv zeta;
    match goal with
    | |- adds _ (bind _ _) => apply adds_bind; [ | intro ]
    | |- adds _ (try_except _ _) => apply adds_try; [ | intro ]
    | |- keeps_hs (bind _ _) => apply keeps_bind; [ | intro ]
    | |- keeps_hs (try_except _ _) => apply keeps_try; [ | intro ]
    | |- adds _ (emit _) => apply adds_emit; simpl
    | |- adds _ (log _ _) => apply adds_emit; simpl
    | |- keeps_hs (log _ _) => apply keeps_emit
    | |- _ (match ?x with _ => _ end) => destruct x
    | |- _ (if ?b then _ else _) => destruct b
    | |- _ => solve [ auto with frame_db ]
    end).

Lemma adds_mono (P Q : event -> Prop) {A} (m : M A) :
  (forall e, P e -> Q e) -> adds P m -> adds Q m.
Proof.
  intros HPQ Hm st. destruct (Hm st) as [tr [E F]].
  exists tr. split; [exact E | eapply Forall_impl; eauto].
Qed.




Section Methods.
Variable w : world.

Lemma add_handlers_adds hs : adds benign (add_handlers w hs).
Proof.
  induction hs as [| h hs IH]; simpl.
  - apply adds_ret.
  - apply adds_bind; [| intros; exact IH].
    unfold add_handler. frame.
Qed.

Lemma setup_bot_adds : adds benign (setup_bot w).
Proof.
  unfold setup_bot, build_application, add_error_handler. frame.
  apply add_handlers_adds.
Qed.

Lemma add_handlers_keeps hs : keeps_hs (add_handlers w hs).
Proof.
  induction hs as [| h hs IH]; simpl.
  - apply keeps_ret.
  - apply keeps_bind; [| intros; exact IH].
    unfold add_handler. frame.
Qed.

Lemma setup_bot_keeps : keeps_hs (setup_bot w).
Proof.
  unfold setup_bot, build_application, add_error_handler. frame.
  apply add_handlers_keeps.
Qed.

Lemma setup_health_server_adds : adds health_ev (setup_health_server w).
Proof.
  unfold setup_health_server, http_server, thread_start. frame.
Qed.

(** What [setup_health_server] does, case by case: it never raises, and
    it binds at most one server, recorded in [self.health_server]. *)
Lemma setup_health_server_spec st :
  exists hs' tr,
    setup_health_server w st
      = (Ok tt, mkState (application st) hs' (trace st ++ tr) (pending st))
    /\ Forall health_ev tr
    /\ ((hs' = health_server st /\ servers_created tr = 0)
        \/ (hs' = Some (mkServer "0.0.0.0" (PORT w)) /\ servers_created tr = 1)).
Proof.
  unfold setup_health_server, http_server, thread_start, try_except, bind, get,
    log, emit, set_health_server, ret, raise; simpl.
  destruct (bind_ok w (length (trace st))) eqn:Eb; simpl.
  - destruct (thread_start_ok w (length (trace st ++ [EvHTTPServer "0.0.0.0" (PORT w)])));
      simpl.
    + exists (Some (mkServer "0.0.0.0" (PORT w))),
        [EvHTTPServer "0.0.0.0" (PORT w); EvThreadStart (mkThread "serve_forever" true);
         EvLog INFO "Health check server started on port"].
      rewrite <- !app_assoc. split; [reflexivity |].
      split; [repeat constructor | right; split; reflexivity].
    + exists (Some (mkServer "0.0.0.0" (PORT w))),
        [EvHTTPServer "0.0.0.0" (PORT w); EvLog WARNING "Could not start health server"].
      rewrite <- !app_assoc. split; [reflexivity |].
      split; [repeat constructor | right; split; reflexivity].
  - exists (health_server st), [EvLog WARNING "Could not start health server"].
    split; [reflexivity |].
    split; [repeat constructor | left; split; reflexivity].
Qed.

(** [run_polling] with [start]'s configuration: the backlog is dropped,
    then only the updates of this session are delivered. *)
Lemma run_polling_start_spec st :
  run_polling w start_polling_cfg st
  = if polling_ok w then
      (Ok tt, mkState (application st) (health_server st)
                (trace st ++ [EvRunPolling start_polling_cfg;
                              EvDeliver (session_updates w)]) [])
    else
      (Raise (LibraryError "NetworkError"),
       mkState (application st) (health_server st)
         (trace st ++ [EvRunPolling start_polling_cfg]) []).
Proof.
  unfold run_polling, bind, get, emit, set_pending, ret, raise; simpl.
  destruct (polling_ok w); simpl; [rewrite <- app_assoc |]; reflexivity.
Qed.

Lemma run_polling_start_adds : adds (poll_ev w) (run_polling w start_polling_cfg).
Proof.
  intro st. rewrite run_polling_start_spec.
  destruct (polling_ok w); simpl; eexists; split; try reflexivity;
    repeat constructor.
Qed.

Lemma run_polling_start_keeps : keeps_hs (run_polling w start_polling_cfg).
Proof.
  intro st. rewrite run_polling_start_spec. destruct (polling_ok w); reflexivity.
Qed.

Lemma bind_Ok {A B} (m : M A) (k : A -> M B) st a st' :
  m st = (Ok a, st') -> bind m k st = k a st'.
Proof. intro E. unfold bind. rewrite E. reflexivity. Qed.

Lemma bind_Raise {A B} (m : M A) (k : A -> M B) st e st' :
  m st = (Raise e, st') -> bind m k st = (Raise e, st').
Proof. intro E. unfold bind. rewrite E. reflexivity. Qed.

Lemma try_Ok {A} (m : M A) h st a st' :
  m st = (Ok a, st') -> try_except m h st = (Ok a, st').
Proof. intro E. unfold try_except. rewrite E. reflexivity. Qed.

Lemma try_Raise {A} (m : M A) h st e st' :
  m st = (Raise e, st') -> try_except m h st = h e st'.
Proof. intro E. unfold try_except. rewrite E. reflexivity. Qed.

Lemma add_handler_spec h st a :
  application st = Some a ->
  add_handler w h st
  = if add_handler_ok w h then
      (Ok tt, mkState (Some (mkApp (app_handlers a ++ [h]) (app_error_handlers a)))
                (health_server st) (trace st ++ [EvAddHandler h]) (pending st))
    else (Raise (LibraryError "add_handler"), st).
Proof.
  intro Ha. unfold add_handler, bind, get. rewrite Ha.
  destruct (add_handler_ok w h); reflexivity.
Qed.

Lemma add_handlers_ok hs : forall st a,
  application st = Some a -> forallb (add_handler_ok w) hs = true ->
  exists st', add_handlers w hs st = (Ok tt, st')
    /\ application st' = Some (mkApp (app_handlers a ++ hs) (app_error_handlers a)).
Proof.
  induction hs as [| h hs IH]; intros st a Ha Hok; simpl.
  - exists st. rewrite app_nil_r, Ha. destruct a. auto.
  - simpl in Hok. apply andb_prop in Hok as [Hh Hhs].
    pose proof (add_handler_spec h st a Ha) as E. rewrite Hh in E.
    rewrite (bind_Ok _ _ _ _ _ E).
    destruct (IH (mkState (Some (mkApp (app_handlers a ++ [h]) (app_error_handlers a)))
                   (health_server st) (trace st ++ [EvAddHandler h]) (pending st))
                _ eq_refl Hhs) as [st' [E' A']].
    exists st'. split; [exact E' |]. rewrite A'. simpl.
    rewrite <- app_assoc. reflexivity.
Qed.

Lemma add_handlers_fail hs : forall st a,
  application st = Some a -> forallb (add_handler_ok w) hs = false ->
  exists e st', add_handlers w hs st = (Raise e, st').
Proof.
  induction hs as [| h hs IH]; intros st a Ha Hok; simpl in *.
  - discriminate.
  - pose proof (add_handler_spec h st a Ha) as E.
    destruct (add_handler_ok w h) eqn:Hh; simpl in Hok.
    + rewrite (bind_Ok _ _ _ _ _ E). eapply IH; [reflexivity | exact Hok].
    + rewrite (bind_Raise _ _ _ _ _ E). eauto.
Qed.

Lemma add_error_handler_spec cb st a :
  application st = Some a ->
  add_error_handler w cb st
  = if add_error_handler_ok w then
      (Ok tt, mkState (Some (mkApp (app_handlers a) (app_error_handlers a ++ [cb])))
                (health_server st) (trace st ++ [EvAddErrorHandler cb]) (pending st))
    else (Raise (LibraryError "add_error_handler"), st).
Proof.
  intro Ha. unfold add_error_handler, bind, get. rewrite Ha.
  destruct (add_error_handler_ok w); reflexivity.
Qed.


Lemma setup_bot_ok st :
  setup_steps_ok w = true ->
  exists st', setup_bot w st = (Ok tt, st') /\ application st' = Some full_app.
Proof.
  unfold setup_steps_ok. intro H.
  apply andb_prop in H as [H Heh]. apply andb_prop in H as [Hb Hhs].
  unfold setup_bot, build_application. rewrite Hb.
  destruct (add_handlers_ok registered_handlers
              (mkState (Some (mkApp [] [])) (health_server st)
                 (trace st ++ [EvBuild (BOT_TOKEN w)]) (pending st))
              (mkApp [] []) eq_refl Hhs) as [st1 [E1 A1]].
  eexists. split.
  - apply try_Ok. unfold bind at 1. simpl.
    unfold bind at 1. simpl.
    rewrite (bind_Ok _ _ _ _ _ E1).
    pose proof (add_error_handler_spec error_handler st1 _ A1) as E2.
    rewrite Heh in E2. rewrite (bind_Ok _ _ _ _ _ E2). reflexivity.
  - reflexivity.
Qed.

Lemma setup_bot_fail st :
  setup_steps_ok w = false -> exists e st', setup_bot w st = (Raise e, st').
Proof.
  unfold setup_steps_ok, setup_bot. intro H.
  destruct (build_ok w) eqn:Hb.
  2:{ unfold build_application. rewrite Hb. eexists; eexists.
      rewrite (try_Raise _ _ _ (LibraryError "build") st); reflexivity. }
  destruct (forallb (add_handler_ok w) registered_handlers) eqn:Hhs; simpl in H.
  - destruct (add_handlers_ok registered_handlers
                (mkState (Some (mkApp [] [])) (health_server st)
                   (trace st ++ [EvBuild (BOT_TOKEN w)]) (pending st))
                (mkApp [] []) eq_refl Hhs) as [st1 [E1 A1]].
    eexists; eexists. erewrite try_Raise; [reflexivity |].
    unfold build_application. rewrite Hb.
    unfold bind at 1. simpl. unfold bind at 1. simpl.
    rewrite (bind_Ok _ _ _ _ _ E1).
    pose proof (add_error_handler_spec error_handler st1 _ A1) as E2.
    rewrite H in E2. rewrite (bind_Raise _ _ _ _ _ E2). reflexivity.
  - destruct (add_handlers_fail registered_handlers
                (mkState (Some (mkApp [] [])) (health_server st)
                   (trace st ++ [EvBuild (BOT_TOKEN w)]) (pending st))
                (mkApp [] []) eq_refl Hhs) as [e1 [st1 E1]].
    eexists; eexists. erewrite try_Raise; [reflexivity |].
    unfold build_application. rewrite Hb.
    unfold bind at 1. simpl. unfold bind at 1. simpl.
    rewrite (bind_Raise _ _ _ _ _ E1). reflexivity.
Qed.


Lemma start_none st :
  application st = None ->
  start w st
  = (Raise (RuntimeError "Bot application not properly initialized"),
     mkState (application st) (health_server st)
       (trace st ++ [EvLog ERROR "Error starting bot"]) (pending st)).
Proof.
  intro Ha. destruct st as [ap hs tr pd]; simpl in Ha; subst ap.
  reflexivity.
Qed.

Lemma start_some st a st1 :
  application st = Some a -> start_health_step w st = (Ok tt, st1) ->
  start w st = start_tail w st1.
Proof.
  intros Ha Hh. unfold start, try_except at 1.
  rewrite (bind_Ok get _ st st st eq_refl). cbv beta. rewrite Ha.
  rewrite (bind_Ok get _ st st st eq_refl). cbv beta.
  unfold start_health_step in Hh. rewrite (bind_Ok _ _ _ _ _ Hh).
  reflexivity.
Qed.

Lemma start_health_step_spec st :
  exists st1, start_health_step w st = (Ok tt, st1)
    /\ application st1 = application st /\ pending st1 = pending st.
Proof.
  unfold start_health_step.
  destruct (HEALTH_CHECK_ENABLED w && negb (is_some (health_server st))).
  - destruct (setup_health_server_spec st) as [hs' [tr [E _]]].
    rewrite E. eexists. split; [reflexivity | split; reflexivity].
  - eexists. split; [reflexivity | split; reflexivity].
Qed.

Lemma start_tail_spec st1 :
  start_tail w st1
  = if polling_ok w then
      (Ok tt, mkState (application st1) (health_server st1)
                (trace st1 ++ [EvLog INFO "Starting Joker's Telegram Bot...";
                               EvLog INFO "Health check enabled";
                               EvLog INFO "Port configured";
                               EvRunPolling start_polling_cfg;
                               EvDeliver (session_updates w)]) [])
    else
      (Raise (LibraryError "NetworkError"),
       mkState (application st1) (health_server st1)
         (trace st1 ++ [EvLog INFO "Starting Joker's Telegram Bot...";
                        EvLog INFO "Health check enabled";
                        EvLog INFO "Port configured";
                        EvRunPolling start_polling_cfg;
                        EvLog ERROR "Error starting bot"]) []).
Proof.
  unfold start_tail.
  destruct (polling_ok w) eqn:Ep.
  - erewrite try_Ok; [reflexivity |].
    do 3 (erewrite bind_Ok; [| reflexivity]).
    rewrite run_polling_start_spec, Ep. simpl. rewrite <- !app_assoc. reflexivity.
  - erewrite try_Raise.
    2:{ do 3 (erewrite bind_Ok; [| reflexivity]).
        rewrite run_polling_start_spec, Ep. reflexivity. }
    unfold bind, log, emit, raise. simpl. rewrite <- !app_assoc. reflexivity.
Qed.

Lemma init_eq st :
  init w st
  = (setup_bot w;; if HEALTH_CHECK_ENABLED w then setup_health_server w else ret tt)
      (mkState None None (trace st) (pending st)).
Proof. reflexivity. Qed.

Lemma init_ok st :
  setup_steps_ok w = true ->
  exists st1, init w st = (Ok tt, st1) /\ application st1 = Some full_app.
Proof.
  intro H. unfold init.
  erewrite bind_Ok; [| reflexivity]. erewrite bind_Ok; [| reflexivity].
  destruct (setup_bot_ok (mkState None None (trace st) (pending st)) H)
    as [st1 [E1 A1]].
  rewrite (bind_Ok _ _ _ _ _ E1).
  destruct (HEALTH_CHECK_ENABLED w).
  - destruct (setup_health_server_spec st1) as [hs' [tr [E2 _]]].
    rewrite E2. eexists. split; [reflexivity | exact A1].
  - eexists. split; [reflexivity | exact A1].
Qed.

Lemma init_fail st :
  setup_steps_ok w = false -> exists e st1, init w st = (Raise e, st1).
Proof.
  intro H. unfold init.
  erewrite bind_Ok; [| reflexivity]. erewrite bind_Ok; [| reflexivity].
  destruct (setup_bot_fail (mkState None None (trace st) (pending st)) H)
    as [e [st1 E1]].
  rewrite (bind_Raise _ _ _ _ _ E1). eauto.
Qed.

Lemma init_adds : adds (fun e => benign e \/ health_ev e) (init w).
Proof.
  unfold init. frame.
  - eapply adds_mono; [| apply setup_bot_adds]. auto.
  - eapply adds_mono; [| apply setup_health_server_adds]. auto.
Qed.

Lemma start_adds : adds (fun e => benign e \/ health_ev e \/ poll_ev w e) (start w).
Proof.
  unfold start. frame.
  - eapply adds_mono; [| apply setup_health_server_adds]. auto.
  - eapply adds_mono; [| apply run_polling_start_adds]. auto.
Qed.

Lemma init_adds_disabled :
  HEALTH_CHECK_ENABLED w = false -> adds benign (init w).
Proof.
  intro H. unfold init. rewrite H. frame. apply setup_bot_adds.
Qed.

Lemma start_adds_disabled :
  HEALTH_CHECK_ENABLED w = false -> adds (fun e => benign e \/ poll_ev w e) (start w).
Proof.
  intro H. unfold start. rewrite H. cbn [andb]. frame.
  eapply adds_mono; [| apply run_polling_start_adds]. auto.
Qed.

Lemma starts_adds n :
  adds (fun e => benign e \/ health_ev e \/ poll_ev w e) (starts w n).
Proof.
  induction n as [| n IH]; simpl.
  - apply adds_ret.
  - apply adds_bind; [apply start_adds | intros; exact IH].
Qed.

Lemma init_adds_with (P : event -> Prop) :
  (forall e, benign e -> P e) -> adds P (setup_health_server w) -> adds P (init w).
Proof.
  intros HP Hh. unfold init. frame.
  eapply adds_mono; [| apply setup_bot_adds]. auto.
Qed.

Lemma start_adds_with (P : event -> Prop) :
  (forall e, benign e \/ poll_ev w e -> P e) ->
  adds P (setup_health_server w) -> adds P (start w).
Proof.
  intros HP Hh. unfold start. frame.
  all: first [ apply HP; simpl; auto
             | eapply adds_mono; [| apply run_polling_start_adds]; auto ].
Qed.


Lemma servers_created_app l1 l2 :
  servers_created (l1 ++ l2) = servers_created l1 + servers_created l2.
Proof. unfold servers_created. rewrite filter_app, length_app. reflexivity. Qed.

Lemma threads_started_app l1 l2 :
  threads_started (l1 ++ l2) = threads_started l1 + threads_started l2.
Proof. unfold threads_started. rewrite filter_app, length_app. reflexivity. Qed.

Lemma threads_started_none (P : event -> Prop) tr :
  (forall e, P e -> is_thread_start e = false) -> Forall P tr -> threads_started tr = 0.
Proof.
  intros HP HF. unfold threads_started. induction HF as [| e tr He _ IH]; simpl.
  - reflexivity.
  - rewrite (HP e He). exact IH.
Qed.

Lemma polls_app l1 l2 : polls (l1 ++ l2) = polls l1 + polls l2.
Proof. unfold polls. rewrite filter_app, length_app. reflexivity. Qed.

Lemma servers_created_none (P : event -> Prop) tr :
  (forall e, P e -> is_http_server e = false) -> Forall P tr -> servers_created tr = 0.
Proof.
  intros HP HF. unfold servers_created. induction HF as [| e tr He _ IH]; simpl.
  - reflexivity.
  - rewrite (HP e He). exact IH.
Qed.

Lemma polls_none (P : event -> Prop) tr :
  (forall e, P e -> is_run_polling e = false) -> Forall P tr -> polls tr = 0.
Proof.
  intros HP HF. unfold polls. induction HF as [| e tr He _ IH]; simpl.
  - reflexivity.
  - rewrite (HP e He). exact IH.
Qed.

Lemma one_server_frame {A} (m : M A) st :
  keeps_hs m -> adds benign m -> one_server st -> one_server (snd (m st)).
Proof.
  intros Hk Ha [H1 H2]. destruct (Ha st) as [tr [E F]].
  assert (Z : servers_created tr = 0)
    by (apply (servers_created_none benign); [intros [] []; reflexivity | exact F]).
  unfold one_server. rewrite E, servers_created_app, Z, Hk, Nat.add_0_r. auto.
Qed.

Lemma setup_health_server_one_server st :
  health_server st = None -> one_server st ->
  one_server (snd (setup_health_server w st)).
Proof.
  intros Hn [_ H2]. specialize (H2 Hn).
  destruct (setup_health_server_spec st) as [hs' [tr [E [_ C]]]].
  rewrite E. unfold one_server; simpl. rewrite servers_created_app, H2.
  destruct C as [[-> Z] | [-> Z]]; rewrite Z; split; auto; discriminate.
Qed.

Lemma start_one_server st : one_server st -> one_server (snd (start w st)).
Proof.
  intro Hi. destruct (application st) as [a |] eqn:Ha.
  - destruct (start_health_step_spec st) as [st1 [E1 _]].
    rewrite (start_some st a st1 Ha E1).
    assert (Hi1 : one_server st1).
    { unfold start_health_step in E1.
      destruct (HEALTH_CHECK_ENABLED w && negb (is_some (health_server st))) eqn:G.
      - apply andb_prop in G as [_ G].
        destruct (health_server st) eqn:Hs; [discriminate |].
        replace st1 with (snd (setup_health_server w st)) by (rewrite E1; reflexivity).
        apply setup_health_server_one_server; assumption.
      - unfold ret in E1. injection E1 as <-. exact Hi. }
    rewrite start_tail_spec. destruct Hi1 as [H1 H2].
    destruct (polling_ok w); unfold one_server; simpl;
      rewrite servers_created_app; simpl; rewrite Nat.add_0_r; auto.
  - rewrite (start_none st Ha). destruct Hi as [H1 H2].
    unfold one_server; simpl. rewrite servers_created_app; simpl.
    rewrite Nat.add_0_r. auto.
Qed.

Lemma init_one_server st :
  servers_created (trace st) = 0 -> one_server (snd (init w st)).
Proof.
  intro H0. rewrite init_eq.
  set (st0 := mkState None None (trace st) (pending st)).
  assert (Hi0 : one_server st0) by (unfold one_server; simpl; rewrite H0; auto).
  pose proof (one_server_frame (setup_bot w) st0 setup_bot_keeps setup_bot_adds Hi0)
    as Hi1.
  pose proof (setup_bot_keeps st0) as K.
  destruct (setup_bot w st0) as [[u | e] st1] eqn:E; unfold bind; rewrite E.
  - simpl in Hi1, K. destruct (HEALTH_CHECK_ENABLED w).
    + apply setup_health_server_one_server; assumption.
    + exact Hi1.
  - exact Hi1.
Qed.

Lemma starts_one_server n : forall st, one_server st -> one_server (snd (starts w n st)).
Proof.
  induction n as [| n IH]; intros st Hi; simpl.
  - exact Hi.
  - unfold bind. pose proof (start_one_server st Hi) as H1.
    destruct (start w st) as [[u | e] st1]; simpl in *; auto.
Qed.

End Methods.

End BotFacts.

(* ================================================================= *)
(** ** The claims *)

Module Claims.
Import Ptb Bot BotFacts.
Local Open Scope list_scope.
Local Open Scope nat_scope.

Lemma truthy_iff (o : option string) :
  Config.truthy o = true <-> exists v, o = Some v /\ v <> ""%string.
Proof.
  destruct o as [v |]; simpl.
  - rewrite negb_true_iff, String.eqb_neq. split.
    + intro H. exists v. auto.
    + intros [v' [E H]]. injection E as <-. exact H.
  - split; [discriminate | intros [v [E _]]; discriminate].
Qed.

Lemma truthy_py_or (a b : option string) :
  Config.truthy (Config.py_or a b) = Config.truthy a || Config.truthy b.
Proof. unfold Config.py_or. destruct (Config.truthy a) eqn:E; simpl; auto. Qed.

(** C1: [do_GET] on [/health] answers 200 with a [Content-Type:
    application/json] header (header names compare case-insensitively)
    and the body [{"status": "healthy", "bot": "jokers-telegram-bot"}];
    on any other path it answers 404 with an empty body. *)
Theorem do_GET_contract : forall rq : Http.request,
  (Http.path rq = "/health"%string ->
     Http.status (Http.do_GET rq) = 200%Z
     /\ Http.header "Content-Type" (Http.headers (Http.do_GET rq))
        = Some "application/json"%string
     /\ Http.body (Http.do_GET rq)
        = Http.json_object [("status", "healthy"); ("bot", "jokers-telegram-bot")]%string)
  /\ (Http.path rq <> "/health"%string ->
     Http.status (Http.do_GET rq) = 404%Z /\ Http.body (Http.do_GET rq) = ""%string).
Proof.
  intro rq. unfold Http.do_GET. split; intro H.
  - rewrite H. repeat split; reflexivity.
  - apply String.eqb_neq in H. rewrite H. split; reflexivity.
Qed.

(** C2: if building the application or any registration step fails,
    [setup_bot] raises, so does the constructor, and a process that
    constructs the bot and then calls [start] raises without ever
    entering the poll loop. *)
Theorem setup_failure_never_polls : forall (w : world) (st : state),
  build_ok w = false
  \/ (exists h, In h registered_handlers /\ add_handler_ok w h = false)
  \/ add_error_handler_ok w = false ->
  (exists e, fst (setup_bot w st) = Raise e)
  /\ (exists e, fst (init w st) = Raise e)
  /\ (exists e, fst (run_bot w st) = Raise e)
  /\ polls (trace (snd (run_bot w st))) = polls (trace st).
Proof.
  intros w st H.
  assert (Hf : setup_steps_ok w = false).
  { unfold setup_steps_ok. destruct H as [H | [[h [Hin Hh]] | H]].
    - rewrite H. reflexivity.
    - destruct (forallb (add_handler_ok w) registered_handlers) eqn:E.
      + rewrite forallb_forall in E. rewrite (E h Hin) in Hh. discriminate.
      + rewrite andb_false_r. reflexivity.
    - rewrite H. apply andb_false_r. }
  destruct (setup_bot_fail w st Hf) as [e1 [s1 E1]].
  destruct (init_fail w st Hf) as [e2 [s2 E2]].
  destruct (init_adds w st) as [tr [Et F]].
  unfold run_bot. rewrite (bind_Raise _ _ _ _ _ E2).
  rewrite E2 in Et. simpl in Et |- *.
  split; [exists e1; rewrite E1; reflexivity |].
  split; [exists e2; rewrite E2; reflexivity |].
  split; [exists e2; reflexivity |].
  rewrite Et, polls_app, (polls_none (fun e => benign e \/ health_ev e) tr).
  - apply Nat.add_0_r.
  - intros [] []; reflexivity || contradiction.
  - exact F.
Qed.

(** C3: when the port cannot be bound, [setup_health_server] catches the
    error, logs a warning and returns normally; a process whose setup
    and polling succeed then constructs the bot and enters the poll loop
    with no health server bound. *)
Theorem health_bind_failure_non_fatal : forall w : world,
  (forall n, bind_ok w n = false) ->
  (forall st, setup_health_server w st
     = (Ok tt, mkState (application st) (health_server st)
                 (trace st ++ [EvLog WARNING "Could not start health server"])
                 (pending st)))
  /\ (setup_steps_ok w = true -> polling_ok w = true -> forall backlog,
        fst (run_bot w (fresh backlog)) = Ok tt
        /\ health_server (snd (run_bot w (fresh backlog))) = None
        /\ servers_created (trace (snd (run_bot w (fresh backlog)))) = 0
        /\ In (EvRunPolling start_polling_cfg) (trace (snd (run_bot w (fresh backlog))))
        /\ (HEALTH_CHECK_ENABLED w = true ->
            In (EvLog WARNING "Could not start health server")
               (trace (snd (run_bot w (fresh backlog)))))).
Proof.
  intros w Hb.
  assert (Ha : forall st, setup_health_server w st
     = (Ok tt, mkState (application st) (health_server st)
                 (trace st ++ [EvLog WARNING "Could not start health server"])
                 (pending st))).
  { intro st. unfold setup_health_server, http_server, try_except, bind, get,
      log, emit, raise. simpl. rewrite Hb. reflexivity. }
  split; [exact Ha |].
  intros Hs Hp backlog.
  assert (Hnone : adds (fun e => is_http_server e = false) (setup_health_server w)).
  { intro st. rewrite Ha. eexists. split; [reflexivity | repeat constructor]. }
  assert (Hkeep : keeps_hs (setup_health_server w)).
  { intro st. rewrite Ha. reflexivity. }
  destruct (init_ok w (fresh backlog) Hs) as [st1 [E1 A1]].
  assert (H1 : health_server st1 = None).
  { change st1 with (snd (Ok tt, st1)). rewrite <- E1, init_eq.
    apply keeps_bind; [apply setup_bot_keeps | intros _].
    destruct (HEALTH_CHECK_ENABLED w); [exact Hkeep | apply keeps_ret]. }
  assert (Hst : exists st2, start_health_step w st1 = (Ok tt, st2)
            /\ health_server st2 = None
            /\ (HEALTH_CHECK_ENABLED w = true ->
                In (EvLog WARNING "Could not start health server") (trace st2))).
  { unfold start_health_step. rewrite H1. simpl.
    destruct (HEALTH_CHECK_ENABLED w); simpl.
    - rewrite Ha. eexists. split; [reflexivity |]. split; [exact H1 |].
      intros _. simpl. apply in_or_app. right. left. reflexivity.
    - eexists. split; [reflexivity |]. split; [exact H1 | discriminate]. }
  destruct Hst as [st2 [E2 [H2 W2]]].
  assert (Erun : run_bot w (fresh backlog) = start_tail w st2).
  { unfold run_bot. rewrite (bind_Ok _ _ _ _ _ E1).
    exact (start_some w st1 full_app st2 A1 E2). }
  destruct (init_adds_with w (fun e => is_http_server e = false)
              ltac:(intros [] []; reflexivity) Hnone (fresh backlog)) as [tr1 [T1 F1]].
  destruct (start_adds_with w (fun e => is_http_server e = false)
              ltac:(intros [] [[] | []]; reflexivity) Hnone st1) as [tr2 [T2 F2]].
  rewrite E1 in T1. simpl in T1.
  assert (Es : run_bot w (fresh backlog) = start w st1).
  { unfold run_bot. rewrite (bind_Ok _ _ _ _ _ E1). reflexivity. }
  rewrite start_tail_spec, Hp in Erun.
  split; [rewrite Erun; reflexivity |].
  split; [rewrite Erun; exact H2 |].
  split.
  { rewrite Es, T2, T1, servers_created_app.
    rewrite (servers_created_none _ tr1 (fun e H => H) F1).
    rewrite (servers_created_none _ tr2 (fun e H => H) F2). reflexivity. }
  rewrite Erun. simpl. split.
  - apply in_or_app. right. simpl. auto 6.
  - intro He. apply in_or_app. left. exact (W2 He).
Qed.

(** C4: every poll loop [start] enters uses poll interval 1.0, timeouts
    of 10 for the overall, read, write, connect and pool phases, and
    [drop_pending_updates=True]; the loop then delivers only the updates
    of its own session, none of the backlog pending before it. *)
Theorem start_polling_configuration : forall (w : world) (st : state),
  exists tr, trace (snd (start w st)) = trace st ++ tr
  /\ (forall cfg, In (EvRunPolling cfg) tr ->
        cfg = start_polling_cfg
        /\ poll_interval cfg = 1%Q
        /\ timeout cfg = 10%Z /\ read_timeout cfg = 10%Z
        /\ write_timeout cfg = 10%Z /\ connect_timeout cfg = 10%Z
        /\ pool_timeout cfg = 10%Z
        /\ drop_pending_updates cfg = true)
  /\ (forall ids, In (EvDeliver ids) tr -> ids = session_updates w).
Proof.
  intros w st. destruct (start_adds w st) as [tr [E F]].
  exists tr. split; [exact E |]. rewrite Forall_forall in F. split.
  - intros cfg Hin. destruct (F _ Hin) as [[] | [[] | Hc]]. simpl in Hc. subst cfg.
    repeat split; reflexivity.
  - intros ids Hin. destruct (F _ Hin) as [[] | [[] | Hc]]. exact Hc.
Qed.

(** C6: with [HEALTH_CHECK_ENABLED] false, neither the constructor nor
    [start] binds a server or starts a thread, and the constructor leaves
    [self.health_server] unset. *)
Theorem disabled_no_health_server : forall w : world,
  HEALTH_CHECK_ENABLED w = false ->
  (forall st, exists tr, trace (snd (init w st)) = trace st ++ tr
     /\ servers_created tr = 0 /\ threads_started tr = 0
     /\ health_server (snd (init w st)) = None)
  /\ (forall st, exists tr, trace (snd (start w st)) = trace st ++ tr
     /\ servers_created tr = 0 /\ threads_started tr = 0
     /\ health_server (snd (start w st)) = health_server st).
Proof.
  intros w Hd. split; intro st.
  - destruct (init_adds_disabled w Hd st) as [tr [E F]].
    exists tr. split; [exact E |].
    split; [apply (servers_created_none benign); [intros [] []; reflexivity | exact F] |].
    split; [apply (threads_started_none benign); [intros [] []; reflexivity | exact F] |].
    rewrite init_eq, Hd.
    apply keeps_bind; [apply setup_bot_keeps | intros; apply keeps_ret].
  - destruct (start_adds_disabled w Hd st) as [tr [E F]].
    exists tr. split; [exact E |].
    split; [apply (servers_created_none (fun e => benign e \/ poll_ev w e));
            [intros [] [[] | []]; reflexivity | exact F] |].
    split; [apply (threads_started_none (fun e => benign e \/ poll_ev w e));
            [intros [] [[] | []]; reflexivity | exact F] |].
    assert (K : keeps_hs (start w)).
    { unfold start. rewrite Hd. cbn [andb]. frame. apply run_polling_start_keeps. }
    apply K.
Qed.

(** C7: a process that constructs the bot and calls [start] any number
    of times binds at most one health server; and [start] on a bot whose
    [self.health_server] is set binds none. *)
Theorem at_most_one_health_server :
  (forall (w : world) backlog n,
     servers_created (trace (snd ((init w;; starts w n) (fresh backlog)))) <= 1)
  /\ (forall (w : world) st, health_server st <> None ->
       servers_created (trace (snd (start w st))) = servers_created (trace st)).
Proof.
  split.
  - intros w backlog n. unfold bind.
    pose proof (init_one_server w (fresh backlog) eq_refl) as H0.
    destruct (init w (fresh backlog)) as [[u | e] st1]; simpl in *.
    + apply (starts_one_server w n st1 H0).
    + apply H0.
  - intros w st Hs. destruct (application st) as [a |] eqn:Ha.
    + assert (E1 : start_health_step w st = (Ok tt, st)).
      { unfold start_health_step. destruct (health_server st); [| congruence].
        rewrite andb_false_r. reflexivity. }
      rewrite (start_some w st a st Ha E1), start_tail_spec.
      destruct (polling_ok w); simpl; rewrite servers_created_app; simpl;
        apply Nat.add_0_r.
    + rewrite (start_none w st Ha). simpl. rewrite servers_created_app.
      apply Nat.add_0_r.
Qed.

(** C9: every thread the bot starts (in the constructor or in any call
    of [start]) is the daemon thread running [serve_forever]. *)
Theorem health_thread_daemonic : forall (w : world) (st : state) n,
  exists tr, trace (snd ((init w;; starts w n) st)) = trace st ++ tr
  /\ (forall t, In (EvThreadStart t) tr ->
        daemon t = true /\ target t = "serve_forever"%string).
Proof.
  intros w st n.
  assert (Hi : adds (fun e => benign e \/ health_ev e \/ poll_ev w e) (init w)).
  { apply init_adds_with; [intros e He; left; exact He |].
    eapply adds_mono; [| apply setup_health_server_adds]. auto. }
  destruct (adds_bind _ _ _ Hi (fun _ => starts_adds w n) st) as [tr [E F]].
  exists tr. split; [exact E |]. rewrite Forall_forall in F.
  intros t Hin. destruct (F _ Hin) as [[] | [Ht | []]]. exact Ht.
Qed.

(** C10: [start] on a bot whose [self.application] is [None] raises
    [RuntimeError] after logging the error, before any health-server or
    polling step: no server, thread or poll loop is added. *)
Theorem start_uninitialized_raises : forall (w : world) (st : state),
  application st = None ->
  fst (start w st) = Raise (RuntimeError "Bot application not properly initialized")
  /\ trace (snd (start w st)) = trace st ++ [EvLog ERROR "Error starting bot"]
  /\ health_server (snd (start w st)) = health_server st
  /\ servers_created (trace (snd (start w st))) = servers_created (trace st)
  /\ threads_started (trace (snd (start w st))) = threads_started (trace st)
  /\ polls (trace (snd (start w st))) = polls (trace st).
Proof.
  intros w st Ha. rewrite (start_none w st Ha). simpl.
  rewrite servers_created_app, threads_started_app, polls_app. simpl.
  rewrite !Nat.add_0_r. repeat split; reflexivity.
Qed.

(** C5 (code_bug): an edited plain-text message matches both the
    [TEXT & ~COMMAND] handler and the [UpdateType.EDITED_MESSAGE]
    handler, because the message filters test [effective_message],
    which is the edited message; dispatch hands it to [handle_message],
    registered first, so [handle_edited_message] never sees it. *)
Theorem edited_text_matches_two_handlers : forall bot_username : string,
  matching_message_handlers Inputs.edited_text_update
    = [handle_message; handle_edited_message]
  /\ dispatch bot_username registered_handlers Inputs.edited_text_update
    = Some handle_message.
Proof. intro u. split; reflexivity. Qed.

(** C8 (counterexample): with no explicit value and [RENDER] set to the
    empty string, the marker is present but the flag is false. *)
Lemma empty_render_marker_disables :
  Config.getenv Inputs.empty_render_env "RENDER" = Some ""%string
  /\ Config.resolve_by_presence None Inputs.empty_render_env = true
  /\ Config.resolve_health_check_enabled None Inputs.empty_render_env = false.
Proof. repeat split; reflexivity. Qed.

(** C8 (amended): an explicit configuration value wins; without one the
    flag is true exactly when [RENDER] or [RENDER_SERVICE_ID] is set to a
    non-empty value, and false otherwise. *)
Theorem health_flag_precedence : forall (cv : option bool) (env : list (string * string)),
  (forall v, cv = Some v -> Config.resolve_health_check_enabled cv env = v)
  /\ (cv = None ->
      (Config.resolve_health_check_enabled cv env = true
       <-> (exists v, Config.getenv env "RENDER" = Some v /\ v <> ""%string)
           \/ (exists v, Config.getenv env "RENDER_SERVICE_ID" = Some v /\ v <> ""%string))).
Proof.
  intros cv env. split.
  - intros v ->. reflexivity.
  - intros ->. unfold Config.resolve_health_check_enabled.
    rewrite truthy_py_or, orb_true_iff, !truthy_iff. reflexivity.
Qed.

(** Witnesses: the hypotheses of the theorems above hold at concrete
    inputs, where the theorems apply. *)

Lemma setup_failure_never_polls_witness :
  (build_ok Inputs.bad_token_world = false
   \/ (exists h, In h registered_handlers /\ add_handler_ok Inputs.bad_token_world h = false)
   \/ add_error_handler_ok Inputs.bad_token_world = false)
  /\ polls (trace (snd (run_bot Inputs.bad_token_world (fresh [1; 2]))))
     = polls (trace (fresh [1; 2])).
Proof.
  split; [left; reflexivity |].
  exact (proj2 (proj2 (proj2
    (setup_failure_never_polls Inputs.bad_token_world (fresh [1; 2])
       (or_introl eq_refl))))).
Defined.

Lemma health_bind_failure_non_fatal_witness :
  (forall n, bind_ok Inputs.port_in_use_world n = false)
  /\ fst (run_bot Inputs.port_in_use_world (fresh [1; 2])) = Ok tt.
Proof.
  split; [intro n; reflexivity |].
  exact (proj1 (proj2 (health_bind_failure_non_fatal Inputs.port_in_use_world
                         (fun _ => eq_refl)) eq_refl eq_refl [1; 2])).
Defined.

Lemma disabled_no_health_server_witness :
  HEALTH_CHECK_ENABLED (Inputs.ok_world false) = false
  /\ exists tr, trace (snd (init (Inputs.ok_world false) (fresh []))) = trace (fresh []) ++ tr
     /\ servers_created tr = 0 /\ threads_started tr = 0
     /\ health_server (snd (init (Inputs.ok_world false) (fresh []))) = None.
Proof.
  split; [reflexivity |].
  exact (proj1 (disabled_no_health_server (Inputs.ok_world false) eq_refl) (fresh [])).
Defined.

Lemma start_uninitialized_raises_witness :
  application (fresh [1]) = None
  /\ fst (start (Inputs.ok_world true) (fresh [1]))
     = Raise (RuntimeError "Bot application not properly initialized").
Proof.
  split; [reflexivity |].
  exact (proj1 (start_uninitialized_raises (Inputs.ok_world true) (fresh [1]) eq_refl)).
Defined.

End Claims.

(* ================================================================= *)
(** ** Further properties of bot.py *)

Module Extras.
Import Ptb Bot BotFacts Inputs.
Local Open Scope list_scope.
Local Open Scope nat_scope.

(** Helpers. *)

Lemma split_at_no_at (s : string) :
  ~ In "@"%char (list_ascii_of_string s) -> split_at s = (s, None).
Proof.
  induction s as [| c s IH]; simpl; intro H; [reflexivity |].
  destruct (Ascii.eqb c "@"%char) eqn:E.
  - apply Ascii.eqb_eq in E. subst. exfalso. apply H. left. reflexivity.
  - rewrite IH; [reflexivity | intro Hin; apply H; right; exact Hin].
Qed.

Lemma split_at_app_at (c rest : string) :
  ~ In "@"%char (list_ascii_of_string c) ->
  split_at (c ++ String "@"%char rest) = (c, Some rest).
Proof.
  induction c as [| a c IH]; simpl; intro H; [reflexivity |].
  destruct (Ascii.eqb a "@"%char) eqn:E.
  - apply Ascii.eqb_eq in E. subst. exfalso. apply H. left. reflexivity.
  - rewrite IH; [reflexivity | intro Hin; apply H; right; exact Hin].
Qed.

Lemma substring_prefix (p rest : string) :
  substring 0 (String.length p) (p ++ rest) = p.
Proof.
  induction p as [| a p IH]; simpl; [destruct rest; reflexivity | rewrite IH; reflexivity].
Qed.

Lemma command_filter_false m :
  no_leading_command m -> message_filter COMMAND m = false.
Proof.
  unfold no_leading_command, message_filter. destruct (entities m) as [| e es]; auto.
  intros [H | H].
  - apply String.eqb_neq in H. rewrite H. reflexivity.
  - apply Nat.eqb_neq in H. rewrite H. apply andb_false_r.
Qed.

Lemma command_check_false bot c u m :
  effective_message u = Some m -> no_leading_command m ->
  command_check_update bot c u = false.
Proof.
  intros He Hn. unfold command_check_update. rewrite He.
  unfold no_leading_command in Hn. destruct (entities m) as [| e es]; [reflexivity |].
  destruct (text m); [| reflexivity].
  destruct Hn as [H | H].
  - apply String.eqb_neq in H. rewrite H. reflexivity.
  - apply Nat.eqb_neq in H. rewrite H, andb_false_r. reflexivity.
Qed.

Lemma command_check_self bot c c' rest ents u m :
  effective_message u = Some m -> messages_update u = true ->
  text m = Some ("/" ++ c ++ rest)%string ->
  entities m = mkEntity "bot_command" 0 (S (String.length c)) :: ents ->
  ~ In "@"%char (list_ascii_of_string c) ->
  command_check_update bot c' u = String.eqb (lower c) (lower c').
Proof.
  intros He Hmu Ht Hen Hat. unfold command_check_update.
  rewrite He, Hen, Ht. simpl. rewrite Nat.sub_0_r, substring_prefix.
  rewrite (split_at_no_at c Hat), String.eqb_refl, Hmu, !andb_true_r.
  reflexivity.
Qed.

(** A message or edited message that starts with the bot command
    [/c] (its first entity a bot command at offset 0 spanning [/c]),
    for one of the six registered commands [c], is handled by that
    command's callback, whatever follows the command. *)
Theorem command_dispatch :
  forall (bot : string) (c : string) (cb : callback) (u : update) (m : message)
         (rest : string) (ents : list entity),
  In (CommandHandler c cb) registered_handlers ->
  (u_message u = Some m \/ (u_message u = None /\ u_edited_message u = Some m)) ->
  text m = Some ("/" ++ c ++ rest)%string ->
  entities m = mkEntity "bot_command" 0 (S (String.length c)) :: ents ->
  dispatch bot registered_handlers u = Some cb.
Proof.
  intros bot c cb u m rest ents Hin Hu Ht Hen.
  assert (He : effective_message u = Some m).
  { unfold effective_message. destruct Hu as [-> | [-> ->]]; reflexivity. }
  assert (Hmu : messages_update u = true).
  { unfold messages_update. destruct Hu as [-> | [_ ->]]; [reflexivity | apply orb_true_r]. }
  simpl in Hin.
  repeat destruct Hin as [Hin | Hin]; try discriminate Hin; try contradiction;
    injection Hin as <- <-;
    match goal with
    | H : text m = Some (String.append _ (String.append ?c _)) |- _ =>
        assert (Hat : ~ In "@"%char (list_ascii_of_string c))
          by (simpl; intro Hc; repeat destruct Hc as [Hc | Hc]; try discriminate; exact Hc)
    end;
    cbn -[command_check_update check_update];
    repeat (erewrite (command_check_self bot _ _ rest ents u m He Hmu Ht Hen);
            [| assumption]);
    reflexivity.
Qed.

Lemma base_check_effective u m :
  effective_message u = Some m -> base_check_update u = true.
Proof.
  unfold effective_message, base_check_update.
  destruct (u_message u), (u_edited_message u), (u_channel_post u),
    (u_edited_channel_post u); simpl; intro H; try discriminate H;
    rewrite ?orb_true_r; reflexivity.
Qed.

Lemma command_check_not_messages bot c u :
  messages_update u = false -> command_check_update bot c u = false.
Proof.
  intro Hmu. unfold command_check_update.
  destruct (effective_message u) as [m |]; [| reflexivity].
  destruct (entities m) as [| e es]; [reflexivity |].
  destruct (text m) as [t |]; [| reflexivity].
  destruct (_ && _)%bool; [| reflexivity].
  destruct (split_at _) as [name at_part].
  rewrite Hmu, andb_false_r. reflexivity.
Qed.

Lemma substring_app_prefix (c s : string) (n : nat) :
  substring 0 (String.length c + n) (c ++ s) = (c ++ substring 0 n s)%string.
Proof.
  induction c as [| a c IH]; simpl; [reflexivity | rewrite IH; reflexivity].
Qed.

Lemma command_check_addressed bot c other rest ents cmd u m :
  effective_message u = Some m -> messages_update u = true ->
  text m = Some ("/" ++ c ++ String "@" (other ++ rest))%string ->
  entities m = mkEntity "bot_command" 0 (S (String.length c + S (String.length other))) :: ents ->
  ~ In "@"%char (list_ascii_of_string c) -> ~ In "@"%char (list_ascii_of_string other) ->
  command_check_update bot cmd u
  = (String.eqb (lower c) (lower cmd) && String.eqb (lower other) (lower bot))%bool.
Proof.
  intros He Hmu Ht Hen Hc Ho. unfold command_check_update.
  rewrite He, Hen, Ht. simpl. rewrite Nat.sub_0_r, substring_app_prefix. simpl.
  rewrite substring_prefix, (split_at_app_at c other Hc), (split_at_no_at other Ho).
  simpl. rewrite Hmu, andb_true_r. reflexivity.
Qed.

(** Any message-like update (message, edited message, channel post or
    edited channel post) with non-empty text, no new chat members and no
    bot command at its start is handled by [handle_message]. *)
Theorem plain_text_dispatch (bot : string) (u : update) (m : message) :
  effective_message u = Some m -> truthy_text (text m) = true ->
  new_chat_members m = [] -> no_leading_command m ->
  dispatch bot registered_handlers u = Some handle_message.
Proof.
  intros He Ht Hn Hc.
  pose proof (base_check_effective u m He) as Hb.
  cbn -[command_check_update check_update].
  rewrite !(command_check_false bot _ u m He Hc).
  simpl. rewrite Hb, He. simpl.
  pose proof (command_filter_false m Hc) as Hf. unfold message_filter in Hf.
  rewrite Hn, Ht, Hf. reflexivity.
Qed.

(** A message-like update that adds members to the chat, and does not
    start with a bot command, is handled by [handle_new_chat_members]. *)
Theorem new_members_dispatch (bot : string) (u : update) (m : message) :
  effective_message u = Some m -> new_chat_members m <> [] ->
  no_leading_command m ->
  dispatch bot registered_handlers u = Some handle_new_chat_members.
Proof.
  intros He Hn Hc.
  pose proof (base_check_effective u m He) as Hb.
  cbn -[command_check_update check_update].
  rewrite !(command_check_false bot _ u m He Hc).
  simpl. rewrite Hb, He. simpl.
  destruct (new_chat_members m); [contradiction | reflexivity].
Qed.

(** A registered command written [/c@name], with [name] this bot's
    username up to letter case, is handled by that command's callback. *)
Theorem addressed_command_dispatch :
  forall (bot c other rest : string) (cb : callback) (u : update) (m : message)
         (ents : list entity),
  In (CommandHandler c cb) registered_handlers ->
  (u_message u = Some m \/ (u_message u = None /\ u_edited_message u = Some m)) ->
  text m = Some ("/" ++ c ++ String "@" (other ++ rest))%string ->
  entities m = mkEntity "bot_command" 0 (S (String.length c + S (String.length other))) :: ents ->
  ~ In "@"%char (list_ascii_of_string other) ->
  lower other = lower bot ->
  dispatch bot registered_handlers u = Some cb.
Proof.
  intros bot c other rest cb u m ents Hin Hu Ht Hen Ho Hl.
  assert (He : effective_message u = Some m).
  { unfold effective_message. destruct Hu as [-> | [-> ->]]; reflexivity. }
  assert (Hmu : messages_update u = true).
  { unfold messages_update. destruct Hu as [-> | [_ ->]]; [reflexivity | apply orb_true_r]. }
  assert (Hb : String.eqb (lower other) (lower bot) = true) by (apply String.eqb_eq; exact Hl).
  simpl in Hin.
  repeat destruct Hin as [Hin | Hin]; try discriminate Hin; try contradiction;
    injection Hin as <- <-;
    match goal with
    | H : text m = Some (String.append _ (String.append ?c _)) |- _ =>
        assert (Hat : ~ In "@"%char (list_ascii_of_string c))
          by (simpl; intro Hc; repeat destruct Hc as [Hc | Hc]; try discriminate; exact Hc)
    end;
    cbn -[command_check_update check_update];
    repeat (erewrite (command_check_addressed bot _ other rest ents _ u m He Hmu Ht Hen);
            [| assumption | assumption]);
    rewrite Hb; reflexivity.
Qed.

(** A new message that starts with a bot command addressed, by an
    [@name] suffix, to another bot is handled by none of the handlers,
    whatever the command. *)
Theorem foreign_command_ignored :
  forall (bot c other rest : string) (u : update) (m : message) (ents : list entity),
  u_message u = Some m -> u_edited_message u = None ->
  text m = Some ("/" ++ c ++ String "@" (other ++ rest))%string ->
  entities m = mkEntity "bot_command" 0 (S (String.length c + S (String.length other))) :: ents ->
  ~ In "@"%char (list_ascii_of_string c) -> ~ In "@"%char (list_ascii_of_string other) ->
  lower other <> lower bot ->
  new_chat_members m = [] ->
  dispatch bot registered_handlers u = None.
Proof.
  intros bot c other rest u m ents Hm Hed Ht Hen Hc Ho Hl Hn.
  assert (He : effective_message u = Some m) by (unfold effective_message; rewrite Hm; reflexivity).
  assert (Hmu : messages_update u = true) by (unfold messages_update; rewrite Hm; reflexivity).
  pose proof (base_check_effective u m He) as Hb.
  apply String.eqb_neq in Hl.
  cbn -[command_check_update check_update].
  rewrite !(command_check_addressed bot c other rest ents _ u m He Hmu Ht Hen Hc Ho), Hl.
  rewrite !andb_false_r.
  simpl. rewrite Hb, He, Hed. simpl. rewrite Hn, Hen. simpl.
  rewrite andb_false_r. reflexivity.
Qed.

(** A bot command posted in a channel is handled by none of the
    handlers: the command handlers only look at messages and edited
    messages, and the text handler excludes commands. *)
Theorem channel_command_ignored :
  forall (bot : string) (u : update) (m : message) (e : entity) (ents : list entity),
  u_message u = None -> u_edited_message u = None -> u_channel_post u = Some m ->
  entities m = e :: ents -> etype e = BOT_COMMAND -> eoffset e = 0 ->
  new_chat_members m = [] ->
  dispatch bot registered_handlers u = None.
Proof.
  intros bot u m e ents Hm Hed Hc Hen Hty Hoff Hn.
  assert (He : effective_message u = Some m)
    by (unfold effective_message; rewrite Hm, Hed, Hc; reflexivity).
  assert (Hmu : messages_update u = false) by (unfold messages_update; rewrite Hm, Hed; reflexivity).
  pose proof (base_check_effective u m He) as Hb.
  cbn -[command_check_update check_update].
  rewrite !(command_check_not_messages bot _ u Hmu).
  simpl. rewrite Hb, He, Hed. simpl. rewrite Hn, Hen, Hty, Hoff. simpl.
  rewrite andb_false_r. reflexivity.
Qed.

(** The response to a path that only starts with [/health] (a query
    string, a trailing slash): [do_GET] compares the whole path. *)
Theorem do_GET_health_prefix_404 (rq : Http.request) (s : string) :
  Http.path rq = ("/health" ++ s)%string -> s <> ""%string ->
  Http.status (Http.do_GET rq) = 404%Z
  /\ Http.headers (Http.do_GET rq)
     = [("Server", Http.server_version rq); ("Date", Http.date rq)]%string
  /\ Http.header "Content-Type" (Http.headers (Http.do_GET rq)) = None
  /\ Http.body (Http.do_GET rq) = ""%string.
Proof.
  intros Hp Hs. unfold Http.do_GET. rewrite Hp.
  destruct s as [| a s]; [contradiction |]. simpl.
  repeat split; reflexivity.
Qed.

(** Lifecycle. *)

Lemma setup_health_server_eq w st :
  setup_health_server w st
  = if bind_ok w (length (trace st)) then
      if thread_start_ok w (S (length (trace st))) then
        (Ok tt, mkState (application st) (Some (mkServer "0.0.0.0" (PORT w)))
                  (trace st ++ [EvHTTPServer "0.0.0.0" (PORT w);
                                EvThreadStart (mkThread "serve_forever" true);
                                EvLog INFO "Health check server started on port"])
                  (pending st))
      else
        (Ok tt, mkState (application st) (Some (mkServer "0.0.0.0" (PORT w)))
                  (trace st ++ [EvHTTPServer "0.0.0.0" (PORT w);
                                EvLog WARNING "Could not start health server"])
                  (pending st))
    else
      (Ok tt, mkState (application st) (health_server st)
                (trace st ++ [EvLog WARNING "Could not start health server"])
                (pending st)).
Proof.
  destruct st as [a hs tr p].
  unfold setup_health_server, try_except, http_server, thread_start, bind, get,
    log, emit, ret, raise, set_health_server. simpl.
  destruct (bind_ok w (length tr)); simpl; [| reflexivity].
  rewrite length_app, Nat.add_1_r.
  destruct (thread_start_ok w (S (length tr))); simpl; rewrite <- !app_assoc; reflexivity.
Qed.

Lemma start_health_step_trace w st :
  exists st1 tr, start_health_step w st = (Ok tt, st1)
    /\ trace st1 = trace st ++ tr /\ Forall health_ev tr
    /\ application st1 = application st /\ pending st1 = pending st.
Proof.
  unfold start_health_step.
  destruct (HEALTH_CHECK_ENABLED w && negb (is_some (health_server st))).
  - destruct (setup_health_server_spec w st) as [hs' [tr [E [F _]]]].
    rewrite E. do 2 eexists.
    split; [reflexivity |]. split; [reflexivity |]. split; [exact F |].
    split; reflexivity.
  - exists st, []. rewrite app_nil_r. repeat split; constructor.
Qed.

Lemma add_handlers_stop w pre h post : forall st a,
  application st = Some a -> forallb (add_handler_ok w) pre = true ->
  add_handler_ok w h = false ->
  add_handlers w (pre ++ h :: post) st
  = (Raise (LibraryError "add_handler"),
     mkState (Some (mkApp (app_handlers a ++ pre) (app_error_handlers a)))
       (health_server st) (trace st ++ map EvAddHandler pre) (pending st)).
Proof.
  induction pre as [| x pre IH]; intros st a Ha Hpre Hh; simpl.
  - erewrite bind_Raise; [| rewrite (add_handler_spec w h st a Ha), Hh; reflexivity].
    destruct st as [a0 hs tr p]. simpl in Ha. subst a0.
    rewrite !app_nil_r. destruct a. reflexivity.
  - simpl in Hpre. apply andb_prop in Hpre as [Hx Hpre].
    erewrite bind_Ok; [| rewrite (add_handler_spec w x st a Ha), Hx; reflexivity].
    rewrite IH with (a := mkApp (app_handlers a ++ [x]) (app_error_handlers a));
      [| reflexivity | exact Hpre | exact Hh].
    simpl. rewrite <- !app_assoc. reflexivity.
Qed.

(** [setup_health_server] never raises and changes neither the
    application nor the pending updates; [self.health_server] is set
    exactly when binding the socket succeeds, whether or not the serving
    thread then starts. *)
Theorem setup_health_server_outcome (w : world) (st : state) :
  fst (setup_health_server w st) = Ok tt
  /\ application (snd (setup_health_server w st)) = application st
  /\ pending (snd (setup_health_server w st)) = pending st
  /\ health_server (snd (setup_health_server w st))
     = if bind_ok w (length (trace st))
       then Some (mkServer "0.0.0.0" (PORT w)) else health_server st.
Proof.
  rewrite setup_health_server_eq.
  destruct (bind_ok w (length (trace st)));
    [destruct (thread_start_ok w (S (length (trace st)))) |];
    repeat split.
Qed.

(** When the socket is bound but the serving thread cannot start,
    [setup_health_server] logs a warning and keeps the server in
    [self.health_server]; the health check of a later [start] then
    does nothing, so the port is never served. *)
Theorem health_thread_failure_keeps_server (w : world) (st : state) :
  bind_ok w (length (trace st)) = true ->
  thread_start_ok w (S (length (trace st))) = false ->
  exists st',
    setup_health_server w st = (Ok tt, st')
    /\ health_server st' = Some (mkServer "0.0.0.0" (PORT w))
    /\ trace st' = trace st ++ [EvHTTPServer "0.0.0.0" (PORT w);
                                EvLog WARNING "Could not start health server"]
    /\ start_health_step w st' = (Ok tt, st').
Proof.
  intros Hb Ht. rewrite setup_health_server_eq, Hb, Ht.
  eexists. split; [reflexivity |]. split; [reflexivity |]. split; [reflexivity |].
  unfold start_health_step. simpl. rewrite andb_false_r. reflexivity.
Qed.

(** [start] on an initialised bot without a health server, with the
    check enabled, tries again: when the bind succeeds this time the
    server is recorded and exactly one more socket is bound. *)
Theorem start_retries_health_server (w : world) (st : state) (a : app) :
  application st = Some a -> health_server st = None ->
  HEALTH_CHECK_ENABLED w = true -> bind_ok w (length (trace st)) = true ->
  health_server (snd (start w st)) = Some (mkServer "0.0.0.0" (PORT w))
  /\ servers_created (trace (snd (start w st))) = S (servers_created (trace st)).
Proof.
  intros Ha Hn He Hb.
  assert (Hs : start_health_step w st = setup_health_server w st).
  { unfold start_health_step. rewrite He, Hn. reflexivity. }
  rewrite setup_health_server_eq, Hb in Hs.
  destruct (thread_start_ok w (S (length (trace st))));
    rewrite (start_some w st a _ Ha Hs), start_tail_spec;
    destruct (polling_ok w); simpl;
    rewrite !servers_created_app; unfold servers_created; simpl; split; try reflexivity; lia.
Qed.

(** When building succeeds and the handlers [pre] are accepted but the
    next one [h] is refused, [setup_bot] logs the failure and re-raises
    the library's error; [self.application] is left holding the
    application with just [pre] registered and no error handler. *)
Theorem setup_bot_partial_registration (w : world) (st : state)
    (pre : list handler) (h : handler) (post : list handler) :
  registered_handlers = pre ++ h :: post -> build_ok w = true ->
  forallb (add_handler_ok w) pre = true -> add_handler_ok w h = false ->
  setup_bot w st
  = (Raise (LibraryError "add_handler"),
     mkState (Some (mkApp pre [])) (health_server st)
       (trace st ++ EvBuild (BOT_TOKEN w) :: map EvAddHandler pre
                 ++ [EvLog ERROR "Failed to setup bot"])
       (pending st)).
Proof.
  intros Hreg Hb Hpre Hh. unfold setup_bot, build_application. rewrite Hreg, Hb.
  erewrite try_Raise.
  2:{ erewrite bind_Ok; [| reflexivity].
      erewrite bind_Ok; [| reflexivity].
      erewrite bind_Raise; [reflexivity |].
      apply add_handlers_stop with (a := mkApp [] []); [reflexivity | exact Hpre | exact Hh]. }
  unfold bind, log, emit, raise. simpl. rewrite <- !app_assoc. reflexivity.
Qed.


(** A process constructs the bot and calls [start]: it enters the poll
    loop once if every step of [setup_bot] succeeds, and never
    otherwise. *)
Theorem run_bot_polls (w : world) (st : state) :
  polls (trace (snd (run_bot w st)))
  = polls (trace st) + (if setup_steps_ok w then 1 else 0).
Proof.
  assert (Hnp : forall e, benign e \/ health_ev e -> is_run_polling e = false).
  { intros [] [H | H]; simpl in H; try contradiction; reflexivity. }
  unfold run_bot. destruct (setup_steps_ok w) eqn:Ok_.
  - destruct (init_ok w st Ok_) as [st1 [E Ha]].
    rewrite (bind_Ok _ _ _ _ _ E).
    destruct (init_adds w st) as [tr0 [T0 F0]]. rewrite E in T0. simpl in T0.
    destruct (start_health_step_trace w st1) as [st2 [tr [Hs [Ht [F1 _]]]]].
    rewrite (start_some w st1 full_app st2 Ha Hs), start_tail_spec.
    assert (P0 : polls tr0 = 0) by (apply (polls_none _ _ Hnp F0)).
    assert (P1 : polls tr = 0).
    { apply (polls_none health_ev); [| exact F1].
      intros [] H; simpl in H; try contradiction; reflexivity. }
    destruct (polling_ok w); simpl; rewrite Ht, T0, !polls_app, P0, P1;
      unfold polls at 2; simpl; lia.
  - destruct (init_fail w st Ok_) as [e [st1 E]].
    rewrite (bind_Raise _ _ _ _ _ E). simpl.
    destruct (init_adds w st) as [tr0 [T0 F0]]. rewrite E in T0. simpl in T0.
    rewrite T0, polls_app, (polls_none _ _ Hnp F0). reflexivity.
Qed.




(** Witnesses. *)

Ltac no_at :=
  simpl; let H := fresh "H" in
  intro H; repeat destruct H as [H | H]; try discriminate; exact H.

Lemma command_dispatch_witness :
  dispatch "JokerBot" registered_handlers (as_message start_now_msg) = Some start_command.
Proof.
  apply (command_dispatch "JokerBot" "start" start_command (as_message start_now_msg)
           start_now_msg " now" []);
    [simpl; left; reflexivity | left; reflexivity | reflexivity | reflexivity].
Defined.

Lemma plain_text_dispatch_witness :
  dispatch "JokerBot" registered_handlers (as_message hello_msg) = Some handle_message.
Proof.
  apply (plain_text_dispatch "JokerBot" (as_message hello_msg) hello_msg);
    [reflexivity | reflexivity | reflexivity | exact I].
Defined.

Lemma new_members_dispatch_witness :
  dispatch "JokerBot" registered_handlers (as_message join_msg)
  = Some handle_new_chat_members.
Proof.
  apply (new_members_dispatch "JokerBot" (as_message join_msg) join_msg);
    [reflexivity | discriminate | exact I].
Defined.

Lemma addressed_command_dispatch_witness :
  dispatch "jokerbot" registered_handlers (as_message help_at_bot_msg) = Some help_command.
Proof.
  apply (addressed_command_dispatch "jokerbot" "help" "JokerBot" "" help_command
           (as_message help_at_bot_msg) help_at_bot_msg []);
    [simpl; right; left; reflexivity | left; reflexivity | reflexivity | reflexivity
    | no_at | reflexivity].
Defined.

Lemma foreign_command_ignored_witness :
  dispatch "JokerBot" registered_handlers (as_message start_at_other_msg) = None.
Proof.
  apply (foreign_command_ignored "JokerBot" "start" "OtherBot" ""
           (as_message start_at_other_msg) start_at_other_msg []);
    [reflexivity | reflexivity | reflexivity | reflexivity | no_at | no_at
    | discriminate | reflexivity].
Defined.

Lemma channel_command_ignored_witness :
  dispatch "JokerBot" registered_handlers (as_channel_post start_msg) = None.
Proof.
  apply (channel_command_ignored "JokerBot" (as_channel_post start_msg) start_msg
           (mkEntity "bot_command" 0 6) []); reflexivity.
Defined.

Lemma do_GET_health_prefix_404_witness :
  Http.status (Http.do_GET (Http.mkRequest "/health?verbose=1" "BaseHTTP/0.6" "today"))
  = 404%Z.
Proof.
  exact (proj1 (do_GET_health_prefix_404
                  (Http.mkRequest "/health?verbose=1" "BaseHTTP/0.6" "today")
                  "?verbose=1" eq_refl ltac:(discriminate))).
Defined.

Lemma health_thread_failure_keeps_server_witness :
  exists st',
    setup_health_server thread_fail_world (fresh []) = (Ok tt, st')
    /\ health_server st' = Some (mkServer "0.0.0.0" 10000)
    /\ trace st' = [EvHTTPServer "0.0.0.0" 10000;
                    EvLog WARNING "Could not start health server"]
    /\ start_health_step thread_fail_world st' = (Ok tt, st').
Proof.
  exact (health_thread_failure_keeps_server thread_fail_world (fresh []) eq_refl eq_refl).
Defined.

Lemma start_retries_health_server_witness :
  health_server (snd (init retry_world (fresh []))) = None
  /\ health_server (snd (start retry_world (snd (init retry_world (fresh [])))))
     = Some (mkServer "0.0.0.0" 10000).
Proof.
  split; [vm_compute; reflexivity |].
  exact (proj1 (start_retries_health_server retry_world
                  (snd (init retry_world (fresh []))) full_app
                  ltac:(vm_compute; reflexivity) ltac:(vm_compute; reflexivity)
                  eq_refl ltac:(vm_compute; reflexivity))).
Defined.

Lemma setup_bot_partial_registration_witness :
  application (snd (setup_bot commands_only_world (fresh [])))
  = Some (mkApp (firstn 6 registered_handlers) []).
Proof.
  rewrite (setup_bot_partial_registration commands_only_world (fresh [])
             (firstn 6 registered_handlers)
             (MessageHandler NEW_CHAT_MEMBERS handle_new_chat_members)
             (skipn 7 registered_handlers));
    [reflexivity | reflexivity | reflexivity | reflexivity | reflexivity].
Defined.




End Extras.
